(** * reobject: the Manager, its descriptors and the Related Manager

    A shallow embedding of [reobject/models/manager.py].

    Python objects that carry identity are modelled by references: a model
    instance is an address into a heap of attribute dictionaries, a Manager
    object carries the object identity it was allocated with, and the
    process-wide [ModelStoreMapping] is a dictionary from model names to the
    ordered collections of instance references.  Every method is a
    computation in a state-and-exception monad over that world.

    [reobject.models.store] and [reobject.query] are other modules of the
    package; the parts of them the Manager calls are modelled from the
    written specification and are marked as such. *)

From Stdlib Require Import ZArith String Ascii.
From stdpp Require Import gmap strings list.

Local Open Scope string_scope.

(** ** Python values, classes and instances *)

(** A reference to a model instance (its identity). *)
Definition addr := nat.

(** The values an attribute or a keyword argument holds. *)
Inductive value :=
| VNone
| VInt (z : Z)
| VStr (s : string)
| VDatetime (t : Z)
| VRef (a : addr).

Global Instance value_eq_dec : EqDecision value.
Proof. solve_decision. Defined.

(** A model class: its identity and its [__name__]. *)
Record ModelClass := { class_id : nat; __name__ : string }.

Global Instance ModelClass_eq_dec : EqDecision ModelClass.
Proof. solve_decision. Defined.

(** Modelled from the spec: the model layer is not part of the file; an
    instance is "an opaque record with an identity ([pk])" whose further
    attributes, the two timestamps included, are set by name. *)
Record Instance := {
  itype : ModelClass;          (* type(instance) *)
  pk : value;                  (* instance.pk *)
  attrs : gmap string value    (* instance.__dict__ *)
}.

Definition getattr (o : Instance) (name : string) : option value :=
  if decide (name = "pk") then Some (pk o) else attrs o !! name.

Definition setattr (o : Instance) (name : string) (v : value) : Instance :=
  {| itype := itype o; pk := pk o; attrs := <[name := v]> (attrs o) |}.

(** ** Strings: [str.lower] and the [%s] / [{}] formatting of the file *)

Definition lower_ascii (c : ascii) : ascii :=
  let n := nat_of_ascii c in
  if (Nat.leb 65 n && Nat.leb n 90)%bool then ascii_of_nat (n + 32) else c.

(** [str.lower] on ASCII text. *)
Fixpoint lower (s : string) : string :=
  match s with
  | EmptyString => EmptyString
  | String c s' => String (lower_ascii c) (lower s')
  end.

(** [str.lower] itself is the runtime's and follows the Unicode case tables,
    which are no part of the package: the development takes the function as
    given and holds for whatever it is.  [lower] above is what it does on
    ASCII text, which the examples are written in. *)
Class StrLower := str_lower : string -> string.

Definition ascii_lower : StrLower := lower.

(** ** Exceptions, the world and the monad *)

Inductive exn :=
| AttributeError (msg : string)     (* raised by the two descriptors *)
| DoesNotExistError                 (* QuerySet.get: no match *)
| MultipleObjectsError              (* QuerySet.get: several matches *)
| NotFoundError                     (* store.remove: identity absent *)
| FieldError (field : string).      (* ordering by a field an item lacks *)

Global Instance exn_eq_dec : EqDecision exn.
Proof. solve_decision. Defined.

Inductive result (A : Type) :=
| Ok (a : A)
| Raise (e : exn).
Arguments Ok {A} a.
Arguments Raise {A} e.

(** The state a call can read or change: the global store mapping, the
    instances' attributes, the identities handed out to new objects, and the
    two ambient sources the code reads, the UTC clock and the random source. *)
Record World := {
  mapping : gmap string (list addr);   (* ModelStoreMapping *)
  heap : addr -> Instance;
  next_oid : nat;
  clock : Z;                           (* what datetime.utcnow() returns *)
  entropy : nat                        (* what the random source draws *)
}.

Definition M (A : Type) : Type := World -> result A * World.

Definition ret {A} (a : A) : M A := fun w => (Ok a, w).
Definition raise {A} (e : exn) : M A := fun w => (Raise e, w).
Definition bind {A B} (m : M A) (k : A -> M B) : M B :=
  fun w => match m w with
           | (Ok a, w') => k a w'
           | (Raise e, w') => (Raise e, w')
           end.
Definition gets {A} (f : World -> A) : M A := fun w => (Ok (f w), w).
Definition modify (f : World -> World) : M unit := fun w => (Ok tt, f w).

Declare Scope py_scope.
Delimit Scope py_scope with py.
Notation "x <- c1 ;; c2" := (bind c1 (fun x => c2))
  (at level 100, c1 at next level, right associativity) : py_scope.
Notation "c1 ;;; c2" := (bind c1 (fun _ => c2))
  (at level 100, right associativity) : py_scope.
Local Open Scope py_scope.

Definition with_mapping (f : gmap string (list addr) -> gmap string (list addr))
    (w : World) : World :=
  {| mapping := f (mapping w); heap := heap w; next_oid := next_oid w;
     clock := clock w; entropy := entropy w |}.

Definition with_heap (f : (addr -> Instance) -> addr -> Instance)
    (w : World) : World :=
  {| mapping := mapping w; heap := f (heap w); next_oid := next_oid w;
     clock := clock w; entropy := entropy w |}.

(** A new object: the next free identity. *)
Definition fresh_oid : M nat :=
  fun w => (Ok (next_oid w),
            {| mapping := mapping w; heap := heap w; next_oid := S (next_oid w);
               clock := clock w; entropy := entropy w |}).

(** [obj.name = v] on an instance. *)
Definition set_attribute (x : addr) (name : string) (v : value) : M unit :=
  modify (with_heap (fun h a => if decide (a = x) then setattr (h a) name v else h a)).

(** [datetime.utcnow()] *)
Definition utcnow : M value := gets (fun w => VDatetime (clock w)).

(** ** The object store ([reobject.models.store]) *)

(** A store collection is a mutable list object; the mapping holds exactly
    one per model name and never replaces it, so a reference to a collection
    is the name it is filed under. *)
Abbreviation store_ref := string.

Module Store.

(** The instances the collection holds now, in insertion order. *)
Definition contents (w : World) (s : store_ref) : list addr :=
  default [] (mapping w !! s).

(** Modelled from the spec: the collection's [append] of section 4.1, "the
    single point where an instance becomes visible to any query". *)
Definition append (s : store_ref) (x : addr) : M unit :=
  modify (with_mapping (fun m => <[s := (default [] (m !! s) ++ [x])%list]> m)).

(** Modelled from the spec: the collection's [clear] of section 4.1; the
    collection object stays in the mapping, emptied. *)
Definition clear (s : store_ref) : M unit :=
  modify (with_mapping (fun m => <[s := []]> m)).

Fixpoint remove_first (x : addr) (l : list addr) : option (list addr) :=
  match l with
  | [] => None
  | y :: l' =>
      if decide (y = x) then Some l'
      else match remove_first x l' with
           | Some r => Some (y :: r)
           | None => None
           end
  end.

(** Modelled from the spec: the collection's [remove] of section 4.1,
    removal by identity, which "fails with NotFoundError when identity
    absent". *)
Definition remove (s : store_ref) (x : addr) : M unit :=
  fun w => match remove_first x (contents w s) with
           | Some l => (Ok tt, with_mapping (fun m => <[s := l]> m) w)
           | None => (Raise NotFoundError, w)
           end.

End Store.

Module ModelStoreMapping.

(** Modelled from the spec: [ModelStoreMapping.get] is not part of the
    file; section 4.1 gives "getCollection(modelName) -> mutable ordered
    sequence, created empty if absent". *)
Definition get (name : string) : M store_ref :=
  fun w => (Ok name,
            with_mapping (fun m => match m !! name with
                                   | Some _ => m
                                   | None => <[name := []]> m
                                   end) w).

End ModelStoreMapping.

(** ** The query engine ([reobject.query]) *)

Module QuerySet.

Definition kwargs := list (string * value).

Inductive clause :=
| FilterBy (kw : kwargs)
| ExcludeBy (kw : kwargs).

(** Modelled from the spec: the [QuerySet] and [EmptyQuerySet] classes are
    not part of the file.  Section 3 has a Query as "a transient, immutable
    description of filters/exclusions ... over one model's collection,
    evaluated against a snapshot at the time of evaluation (not at
    construction time)"; section 4.2 has [none()] as "an always-empty
    Query". *)
Inductive t :=
| Query (store : store_ref) (model : ModelClass) (clauses : list clause)
| EmptyQuerySet (model : ModelClass).

(** [QuerySet(store, model=model)] *)
Definition __init__ (store : store_ref) (model : ModelClass) : t :=
  Query store model [].

Definition model (qs : t) : ModelClass :=
  match qs with Query _ m _ => m | EmptyQuerySet m => m end.

(** The field names of a lookup key: [owner__pk] is [owner] then [pk]. *)
Fixpoint split_lookup_from (cur : string) (s : string) : list string :=
  match s with
  | EmptyString => [cur]
  | String c s' =>
      match s' with
      | String c' s'' =>
          if (Ascii.eqb c "_" && Ascii.eqb c' "_")%bool
          then cur :: split_lookup_from EmptyString s''
          else split_lookup_from (cur ++ String c EmptyString) s'
      | EmptyString => [cur ++ String c EmptyString]
      end
  end.

Definition split_lookup (key : string) : list string :=
  split_lookup_from EmptyString key.

(** Following a chain of field names from a value. *)
Fixpoint resolve (h : addr -> Instance) (path : list string) (v : value)
    : option value :=
  match path with
  | [] => Some v
  | f :: rest =>
      match v with
      | VRef a => match getattr (h a) f with
                  | Some v' => resolve h rest v'
                  | None => None
                  end
      | _ => None
      end
  end.

(** Modelled from the spec: one keyword predicate, "field-equality or
    lookup-suffixed predicates (e.g. field__pk)" (section 4.2): the key's
    chain of fields, followed from the instance, ends in the given value. *)
Definition holds (h : addr -> Instance) (kw : string * value) (a : addr) : bool :=
  bool_decide (resolve h (split_lookup kw.1) (VRef a) = Some kw.2).

(** All the keyword predicates of one call. *)
Definition holds_all (h : addr -> Instance) (kw : kwargs) (a : addr) : bool :=
  forallb (fun p => holds h p a) kw.

Definition apply_clause (h : addr -> Instance) (l : list addr) (c : clause)
    : list addr :=
  match c with
  | FilterBy kw => List.filter (holds_all h kw) l
  | ExcludeBy kw => List.filter (fun a => negb (holds_all h kw a)) l
  end.

(** The instances a Query denotes in a world: its clauses, in the order
    they were chained, over the collection as it is now. *)
Definition evaluate (w : World) (qs : t) : list addr :=
  match qs with
  | Query s _ cs => fold_left (apply_clause (heap w)) cs (Store.contents w s)
  | EmptyQuerySet _ => []
  end.

(** Modelled from the spec: [filter] and [exclude] are "lazy, composable,
    each returns a new Query; never mutates the store" (section 4.2). *)
Definition filter (qs : t) (kw : kwargs) : t :=
  match qs with
  | Query s m cs => Query s m (cs ++ [FilterBy kw])%list
  | EmptyQuerySet m => EmptyQuerySet m
  end.

Definition exclude (qs : t) (kw : kwargs) : t :=
  match qs with
  | Query s m cs => Query s m (cs ++ [ExcludeBy kw])%list
  | EmptyQuerySet m => EmptyQuerySet m
  end.

(** Evaluation at call time, what every terminal operation starts with. *)
Definition items (qs : t) : M (list addr) := gets (fun w => evaluate w qs).

(** Modelled from the spec: [count], the number of current matches. *)
Definition count (qs : t) : M nat :=
  l <- items qs ;; ret (length l).

(** Modelled from the spec: [get] "fails with DoesNotExistError if zero
    matches, MultipleObjectsError if more than one" (section 4.2). *)
Definition get (qs : t) (kw : kwargs) : M addr :=
  l <- items (filter qs kw) ;;
  match l with
  | [] => raise DoesNotExistError
  | [x] => ret x
  | _ => raise MultipleObjectsError
  end.

(** The datetime an item holds in a field, if it holds one. *)
Definition date_key (h : addr -> Instance) (field : string) (a : addr)
    : option Z :=
  match getattr (h a) field with
  | Some (VDatetime t) => Some t
  | _ => None
  end.

Fixpoint keyed (h : addr -> Instance) (field : string) (l : list addr)
    : option (list (addr * Z)) :=
  match l with
  | [] => Some []
  | a :: l' =>
      match date_key h field a, keyed h field l' with
      | Some t, Some r => Some ((a, t) :: r)
      | _, _ => None
      end
  end.

(** The first item of least key, in sequence order. *)
Fixpoint first_min (best : addr * Z) (l : list (addr * Z)) : addr :=
  match l with
  | [] => best.1
  | x :: l' => first_min (if (x.2 <? best.2)%Z then x else best) l'
  end.

(** The last item of greatest key, in sequence order. *)
Fixpoint last_max (best : addr * Z) (l : list (addr * Z)) : addr :=
  match l with
  | [] => best.1
  | x :: l' => last_max (if (best.2 <=? x.2)%Z then x else best) l'
  end.

Definition extremum (pick : addr * Z -> list (addr * Z) -> addr)
    (qs : t) (field_name : option string) : M (option addr) :=
  let field := default "created" field_name in
  l <- items qs ;;
  h <- gets heap ;;
  match l with
  | [] => ret None
  | _ :: _ =>
      match keyed h field l with
      | Some (k :: ks) => ret (Some (pick k ks))
      | _ => raise (FieldError field)
      end
  end.

(** Modelled from the spec: [earliest(field_name='created')] and
    [latest(field_name='created')], "min/max by the named field; None
    (never an error) on empty collection" (section 4.2), with insertion
    order "the basis for default-field earliest/latest/first/last results"
    (section 5): among equal keys the earliest is the first inserted and
    the latest the last inserted.  The spec leaves open what happens when
    an item holds no datetime in the field; the model raises. *)
Definition earliest (qs : t) (field_name : option string) : M (option addr) :=
  extremum first_min qs field_name.

Definition latest (qs : t) (field_name : option string) : M (option addr) :=
  extremum last_max qs field_name.

(** Modelled from the spec: [random], a "selection over current matches;
    None if empty" (section 4.2), the draw taken from the ambient source. *)
Definition random (qs : t) : M (option addr) :=
  l <- items qs ;;
  r <- gets entropy ;;
  match l with
  | [] => ret None
  | _ :: _ => ret (l !! (r mod length l))
  end.

(** Modelled from the spec: the fields [get_or_create] gives a new instance,
    "merging predicates and defaults" (section 4.2); where both name a field
    the default is the one taken. *)
Definition merge_fields (kw : kwargs) (defaults : option kwargs) : gmap string value :=
  list_to_map (default [] defaults ++ kw)%list.

(** Modelled from the spec: the model layer's constructor is not part of the
    file.  The new instance is of the Query's model, holds the merged fields
    and nothing else, and has its own identity for [pk]. *)
Definition new_instance (m : ModelClass) (ref : addr) (kw : kwargs)
    (defaults : option kwargs) : Instance :=
  {| itype := m; pk := VInt (Z.of_nat ref); attrs := merge_fields kw defaults |}.

(** Modelled from the spec: the creating branch of [get_or_create], which
    "constructs and adds a new instance merging predicates and defaults,
    sets created/updated to the current time, appends to the store"
    (section 4.2).  [ref] is the reference the runtime allocates for the new
    object; the allocator's choice is taken as given. *)
Definition create (qs : t) (ref : addr) (defaults : option kwargs) (kw : kwargs)
    : M addr :=
  modify (with_heap (fun h a => if decide (a = ref)
                                then new_instance (model qs) ref kw defaults
                                else h a)) ;;;
  now <- utcnow ;;
  set_attribute ref "created" now ;;;
  set_attribute ref "updated" now ;;;
  s <- ModelStoreMapping.get (__name__ (model qs)) ;;
  Store.append s ref ;;;
  ret ref.

(** Modelled from the spec: [get_or_create(defaults=None, **predicates) ->
    (instance, created)] "attempts get; on DoesNotExistError, constructs and
    adds a new instance ... and returns it with created=true" (section 4.2);
    any other exception of [get] is handed on. *)
Definition get_or_create (qs : t) (ref : addr) (defaults : option kwargs)
    (kw : kwargs) : M (addr * bool) :=
  fun w =>
    match get qs kw w with
    | (Ok obj, w') => (Ok (obj, false), w')
    | (Raise DoesNotExistError, w') =>
        (obj <- create qs ref defaults kw ;; ret (obj, true)) w'
    | (Raise e, w') => (Raise e, w')
    end.

End QuerySet.

(** ** Manager objects *)

(** The class of a manager object: [Manager] itself, or the subclass
    [RelatedManager] that [RelatedManagerDescriptor.__get__] builds around
    the instance it was reached from. *)
Inductive manager_type :=
| ManagerType
| RelatedManagerType (instance : addr).

Global Instance manager_type_eq_dec : EqDecision manager_type.
Proof. solve_decision. Defined.

(** A manager object: its identity, its class and its one attribute. *)
Record ManagerObj := {
  oid : nat;
  mtype : manager_type;
  model : ModelClass
}.

Global Instance ManagerObj_eq_dec : EqDecision ManagerObj.
Proof. solve_decision. Defined.

(** [bool(obj)] of an object whose class defines neither [__bool__] nor
    [__len__]: a Manager, or an opaque model instance. *)
Definition truth_of_object {A} (_ : A) : bool := true.

(** [bool(x)] of an attribute that holds [None] or an object. *)
Definition truth_of_optional {A} (x : option A) : bool :=
  match x with
  | None => false
  | Some o => truth_of_object o
  end.

(** The keyword a Related Manager scopes its queries by, read off the owning
    instance: ['{}__pk'.format(type(instance).__name__.lower())] bound to
    [instance.pk]. *)
Definition foreign_key `{StrLower} (o : Instance) : string * value :=
  (str_lower (__name__ (itype o)) ++ "__pk", pk o).

Module Manager.

(** [Manager(model=model)] and [RelatedManager(model=model)]: a new object
    of the given class. *)
Definition __init__ (cls : manager_type) (model : ModelClass) : M ManagerObj :=
  o <- fresh_oid ;;
  ret {| oid := o; mtype := cls; model := model |}.

(** The [store] property. *)
Definition store (self : ManagerObj) : M store_ref :=
  ModelStoreMapping.get (__name__ (model self)).

(** [Manager.get_queryset], the body the class [Manager] defines. *)
Definition super_get_queryset (self : ManagerObj) : M QuerySet.t :=
  s <- store self ;;
  ret (QuerySet.__init__ s (model self)).

(** [RelatedManager.get_queryset], the override closed over [instance]. *)
Definition related_get_queryset `{StrLower} (instance : addr) (mself : ManagerObj)
    : M QuerySet.t :=
  qs <- super_get_queryset mself ;;
  o <- gets (fun w => heap w instance) ;;
  ret (QuerySet.filter qs [foreign_key o]).

(** [self.get_queryset()], resolved on the class of [self]. *)
Definition get_queryset `{StrLower} (self : ManagerObj) : M QuerySet.t :=
  match mtype self with
  | ManagerType => super_get_queryset self
  | RelatedManagerType instance => related_get_queryset instance self
  end.

Definition _add (self : ManagerObj) (instance : addr) : M addr :=
  now <- utcnow ;;
  set_attribute instance "created" now ;;;
  set_attribute instance "updated" now ;;;
  s <- store self ;;
  Store.append s instance ;;;
  ret instance.

Definition _clear (self : ManagerObj) : M unit :=
  s <- store self ;;
  Store.clear s.

Definition _delete (self : ManagerObj) (obj : addr) : M unit :=
  s <- store self ;;
  Store.remove s obj.

Definition all `{StrLower} (self : ManagerObj) : M QuerySet.t :=
  get_queryset self.

Definition count `{StrLower} (self : ManagerObj) : M nat :=
  qs <- all self ;;
  QuerySet.count qs.

Definition earliest `{StrLower} (self : ManagerObj) (field_name : option string)
    : M (option addr) :=
  let field_name := default "created" field_name in
  qs <- all self ;;
  QuerySet.earliest qs (Some field_name).

Definition exclude `{StrLower} (self : ManagerObj) (kw : QuerySet.kwargs) : M QuerySet.t :=
  qs <- all self ;;
  ret (QuerySet.exclude qs kw).

Definition filter `{StrLower} (self : ManagerObj) (kw : QuerySet.kwargs) : M QuerySet.t :=
  qs <- all self ;;
  ret (QuerySet.filter qs kw).

Definition first `{StrLower} (self : ManagerObj) : M (option addr) :=
  qs <- all self ;;
  QuerySet.earliest qs None.

Definition get `{StrLower} (self : ManagerObj) (kw : QuerySet.kwargs) : M addr :=
  qs <- all self ;;
  QuerySet.get qs kw.

(** [ref] is the reference the runtime allocates if an instance is built. *)
Definition get_or_create `{StrLower} (self : ManagerObj) (ref : addr)
    (defaults : option QuerySet.kwargs) (kw : QuerySet.kwargs) : M (addr * bool) :=
  qs <- all self ;;
  QuerySet.get_or_create qs ref defaults kw.

Definition last `{StrLower} (self : ManagerObj) : M (option addr) :=
  qs <- all self ;;
  QuerySet.latest qs None.

Definition latest `{StrLower} (self : ManagerObj) (field_name : option string)
    : M (option addr) :=
  let field_name := default "created" field_name in
  qs <- all self ;;
  QuerySet.latest qs (Some field_name).

Definition none (self : ManagerObj) : M QuerySet.t :=
  ret (QuerySet.EmptyQuerySet (model self)).

Definition random `{StrLower} (self : ManagerObj) : M (option addr) :=
  qs <- all self ;;
  QuerySet.random qs.

Definition __contains__ `{StrLower} (self : ManagerObj) (item : value) : M bool :=
  x <- get self [("name", item)] ;;
  ret (truth_of_object x).

Definition __repr__ (self : ManagerObj) : string :=
  let manager := match mtype self with
                 | ManagerType => "Manager"
                 | RelatedManagerType _ => "RelatedManager"
                 end in
  "<" ++ manager ++ ": " ++ __name__ (model self) ++ ">".

End Manager.

(** ** The two descriptors *)

Module ManagerDescriptor.

Record t := { manager : option ManagerObj }.

Definition __init__ : t := {| manager := None |}.

(** [__get__(self, instance, owner)]: the value returned, which is what
    [self.manager] holds at the [return], and the descriptor as the call
    leaves it. *)
Definition __get__ (self : t) (instance : option addr) (owner : ModelClass)
    : M (option ManagerObj * t) :=
  match instance with
  | Some _ =>
      raise (AttributeError
               ("Manager isn't accessible via " ++ __name__ owner ++ " instances"))
  | None =>
      self <- (if negb (truth_of_optional (manager self)) then
                 m <- Manager.__init__ ManagerType owner ;;
                 ret {| manager := Some m |}
               else ret self) ;;
      ret (manager self, self)
  end.

(** Class-side accesses in a row, one per owner, through one descriptor. *)
Fixpoint class_accesses (self : t) (owners : list ModelClass)
    : M (list (option ManagerObj) * t) :=
  match owners with
  | [] => ret ([], self)
  | owner :: owners' =>
      r <- __get__ self None owner ;;
      rs <- class_accesses r.2 owners' ;;
      ret (r.1 :: rs.1, rs.2)
  end.

End ManagerDescriptor.

Module RelatedManagerDescriptor.

Record t := { model : ModelClass }.

Definition __init__ (model : ModelClass) : t := {| model := model |}.

Definition __get__ (self : t) (instance : option addr) (owner : ModelClass)
    : M ManagerObj :=
  match instance with
  | None =>
      raise (AttributeError
               ("RelatedManager isn't accessible via " ++ __name__ owner ++ " class"))
  | Some instance =>
      Manager.__init__ (RelatedManagerType instance) (model self)
  end.

End RelatedManagerDescriptor.

(** ** Outcomes, and the data the examples run on *)

(** The world a call leaves once the collection of [name] has been looked
    up, and so created if it was absent. *)
Definition touched (name : string) (w : World) : World :=
  (ModelStoreMapping.get name w).2.



(** A call's result is a Query which, evaluated in the world [w'], has [x]
    among its instances. *)
Definition denotes (m : M QuerySet.t) (w w' : World) (x : addr) : Prop :=
  exists qs, (m w).1 = Ok qs /\ In x (QuerySet.evaluate w' qs).

(** What [get] answers when [found] are the instances its keywords hold of. *)
Definition one_of (found : list addr) : result addr :=
  match found with
  | [] => Raise DoesNotExistError
  | [x] => Ok x
  | _ :: _ :: _ => Raise MultipleObjectsError
  end.

(** The clauses a manager's own Query starts with: none for a Manager, the
    foreign-key filter for a Related Manager. *)
Definition scope `{StrLower} (self : ManagerObj) (w : World) : list QuerySet.clause :=
  match mtype self with
  | ManagerType => []
  | RelatedManagerType instance => [QuerySet.FilterBy [foreign_key (heap w instance)]]
  end.

Definition Author : ModelClass := {| class_id := 1; __name__ := "Author" |}.
Definition Book : ModelClass := {| class_id := 2; __name__ := "Book" |}.

Definition author (key : Z) : Instance :=
  {| itype := Author; pk := VInt key; attrs := ∅ |}.

Definition book (key : Z) (name : string) (by_ : addr) (created : Z) : Instance :=
  {| itype := Book; pk := VInt key;
     attrs := <["name" := VStr name]>
              (<["author" := VRef by_]>
               (<["created" := VDatetime created]>
                (<["updated" := VDatetime created]> ∅))) |}.

(** Two authors, at 0 and 1, and four books: 2 and 4 by the first author,
    3 by the second, and 5, which has not been added to any store. *)
Definition library_heap (a : addr) : Instance :=
  match a with
  | 0 => author 10
  | 1 => author 11
  | 2 => book 20 "a" 0 100
  | 3 => book 21 "b" 1 101
  | 4 => book 22 "a" 0 102
  | _ => book 23 "c" 1 0
  end.

Definition empty_world : World :=
  {| mapping := ∅; heap := library_heap; next_oid := 0; clock := 500; entropy := 7 |}.

Definition library : World :=
  {| mapping := {["Book" := [2; 3; 4]]}; heap := library_heap;
     next_oid := 0; clock := 500; entropy := 7 |}.

Definition books : ManagerObj :=
  {| oid := 0; mtype := ManagerType; model := Book |}.

Definition books_of (owner : addr) : ManagerObj :=
  {| oid := 1; mtype := RelatedManagerType owner; model := Book |}.

(** ** Drivers for sequences of calls *)

(** Accesses in a row through one [ManagerDescriptor], from instances and
    from the class in any order; the caller carries on after an access that
    raised, and each access's outcome is kept. *)
Fixpoint mixed_accesses (self : ManagerDescriptor.t)
    (accesses : list (option addr * ModelClass)) (w : World)
    : list (result (option ManagerObj)) * (ManagerDescriptor.t * World) :=
  match accesses with
  | [] => ([], (self, w))
  | (instance, owner) :: rest =>
      match ManagerDescriptor.__get__ self instance owner w with
      | (Ok r, w') =>
          let out := mixed_accesses r.2 rest w' in (Ok r.1 :: out.1, out.2)
      | (Raise e, w') =>
          let out := mixed_accesses self rest w' in (Raise e :: out.1, out.2)
      end
  end.

(** The owner named by the first class-side access of a sequence. *)
Fixpoint first_class_owner (accesses : list (option addr * ModelClass))
    : option ModelClass :=
  match accesses with
  | [] => None
  | (None, owner) :: _ => Some owner
  | (Some _, _) :: rest => first_class_owner rest
  end.

(** What one access answers once the descriptor holds [held]. *)
Definition answer (held : option ManagerObj) (access : option addr * ModelClass)
    : result (option ManagerObj) :=
  match access.1 with
  | Some _ =>
      Raise (AttributeError
               ("Manager isn't accessible via " ++ __name__ access.2 ++ " instances"))
  | None => Ok held
  end.

(** The world with the UTC clock at [t]: time passing between two calls. *)
Definition with_clock (t : Z) (w : World) : World :=
  {| mapping := mapping w; heap := heap w; next_oid := next_oid w;
     clock := t; entropy := entropy w |}.

(** Whether a manager object is of the class [RelatedManager]. *)
Definition is_related (self : ManagerObj) : bool :=
  match mtype self with
  | ManagerType => false
  | RelatedManagerType _ => true
  end.

(** A call left every collection's contents, every instance and the
    identities handed out as they were. *)
Definition same_data (w w' : World) : Prop :=
  (forall s : store_ref, Store.contents w' s = Store.contents w s)
  /\ heap w' = heap w
  /\ next_oid w' = next_oid w.

(** * Properties *)

Section Properties.

Context {lowering : StrLower}.


(** ** The descriptors *)

(** C1: reaching the Manager through an instance, or the Related Manager
    through the class, raises the access error ([AttributeError] in the
    code) out of [__get__] itself: the call's outcome is the exception with
    the message naming the owner, no manager object is built, and neither
    the descriptor nor the world is changed. *)
Theorem descriptors_deny_wrong_side :
  forall (d : ManagerDescriptor.t) (rd : RelatedManagerDescriptor.t)
         (instance : addr) (owner : ModelClass) (w : World),
    ManagerDescriptor.__get__ d (Some instance) owner w
      = (Raise (AttributeError
                  ("Manager isn't accessible via " ++ __name__ owner ++ " instances")), w)
    /\ RelatedManagerDescriptor.__get__ rd None owner w
      = (Raise (AttributeError
                  ("RelatedManager isn't accessible via " ++ __name__ owner ++ " class")), w).
Proof.
  intros d rd instance owner w. split; reflexivity.
Qed.

Lemma cached_manager_returned (m : ManagerObj) (owner : ModelClass) (w : World) :
  ManagerDescriptor.__get__ {| ManagerDescriptor.manager := Some m |} None owner w
  = (Ok (Some m, {| ManagerDescriptor.manager := Some m |}), w).
Proof. reflexivity. Qed.

Lemma cached_manager_accesses (m : ManagerObj) (owners : list ModelClass) (w : World) :
  ManagerDescriptor.class_accesses {| ManagerDescriptor.manager := Some m |} owners w
  = (Ok (replicate (length owners) (Some m), {| ManagerDescriptor.manager := Some m |}), w).
Proof.
  induction owners as [|owner owners IH]; [reflexivity|].
  cbn [ManagerDescriptor.class_accesses]. unfold bind at 1.
  rewrite cached_manager_returned. unfold bind at 1. cbn [fst snd].
  rewrite IH. reflexivity.
Qed.

(** C8: the first class-side access through a new descriptor builds one
    Manager, bound to the owner of that access, and stores it in the
    descriptor; from then on a class-side access, in any world and however
    many follow, builds nothing and returns that same object. *)
Theorem manager_built_once_and_cached :
  forall (owner : ModelClass) (w : World),
    let m := {| oid := next_oid w; mtype := ManagerType; model := owner |} in
    let d := {| ManagerDescriptor.manager := Some m |} in
    ManagerDescriptor.manager ManagerDescriptor.__init__ = None
    /\ ManagerDescriptor.__get__ ManagerDescriptor.__init__ None owner w
       = (Ok (Some m, d), (fresh_oid w).2)
    /\ (forall (owner' : ModelClass) (w' : World),
          ManagerDescriptor.__get__ d None owner' w' = (Ok (Some m, d), w'))
    /\ (forall owners : list ModelClass,
          ManagerDescriptor.class_accesses ManagerDescriptor.__init__ (owner :: owners) w
          = (Ok (replicate (S (length owners)) (Some m), d), (fresh_oid w).2)).
Proof.
  intros owner w m d. split; [reflexivity|]. split; [reflexivity|]. split.
  - intros owner' w'. apply cached_manager_returned.
  - intros owners. cbn [ManagerDescriptor.class_accesses]. unfold bind at 1.
    change (ManagerDescriptor.__get__ ManagerDescriptor.__init__ None owner w)
      with (Ok (Some m, d), (fresh_oid w).2).
    cbn [fst snd]. unfold bind at 1. subst d. rewrite cached_manager_accesses.
    reflexivity.
Qed.

(** C9: an instance-side access builds a new Related Manager around the
    instance it was reached from, bound to the descriptor's model; the
    descriptor keeps nothing, so the next access from the same instance
    builds another object, and so does any later access. *)
Theorem related_manager_fresh_on_every_access :
  forall (rd : RelatedManagerDescriptor.t) (instance : addr)
         (owner : ModelClass) (w : World),
    let built := fun n => {| oid := n; mtype := RelatedManagerType instance;
                             model := RelatedManagerDescriptor.model rd |} in
    let w1 := (fresh_oid w).2 in
    RelatedManagerDescriptor.__get__ rd (Some instance) owner w
      = (Ok (built (next_oid w)), w1)
    /\ RelatedManagerDescriptor.__get__ rd (Some instance) owner w1
      = (Ok (built (S (next_oid w))), (fresh_oid w1).2)
    /\ built (next_oid w) <> built (S (next_oid w))
    /\ (forall w' : World,
          (next_oid w < next_oid w')%nat ->
          (RelatedManagerDescriptor.__get__ rd (Some instance) owner w').1
          <> Ok (built (next_oid w))).
Proof.
  intros rd instance owner w built w1.
  split; [reflexivity|]. split; [reflexivity|]. split.
  - unfold built. intros H. inversion H. lia.
  - intros w' Hlt H. cbn in H. inversion H. lia.
Qed.

(** ** The store behind a Manager *)

Section StoreFacts.

Variables (name : string) (w : World).

Lemma touched_heap : heap (touched name w) = heap w.
Proof. reflexivity. Qed.

Lemma touched_contents (s : store_ref) :
  Store.contents (touched name w) s = Store.contents w s.
Proof.
  unfold Store.contents, touched, ModelStoreMapping.get, with_mapping.
  cbn [snd mapping].
  destruct (mapping w !! name) eqn:E; [reflexivity|].
  destruct (decide (name = s)) as [->|Hne].
  - rewrite lookup_insert_eq, E. reflexivity.
  - rewrite lookup_insert_ne by exact Hne. reflexivity.
Qed.

Lemma touched_evaluate (qs : QuerySet.t) :
  QuerySet.evaluate (touched name w) qs = QuerySet.evaluate w qs.
Proof.
  destruct qs as [s m cs|m]; [|reflexivity].
  unfold QuerySet.evaluate. rewrite touched_contents. reflexivity.
Qed.

Lemma appended_contents (x : addr) :
  Store.contents (Store.append name x w).2 name
  = (Store.contents w name ++ [x])%list.
Proof.
  unfold Store.contents, Store.append, modify, with_mapping. cbn [snd mapping].
  rewrite lookup_insert_eq. reflexivity.
Qed.

Lemma appended_elsewhere (x : addr) (s : store_ref) :
  s <> name ->
  Store.contents (Store.append name x w).2 s = Store.contents w s.
Proof.
  intros Hne. unfold Store.contents, Store.append, modify, with_mapping.
  cbn [snd mapping]. rewrite lookup_insert_ne by congruence. reflexivity.
Qed.

Lemma cleared_contents : Store.contents (Store.clear name w).2 name = [].
Proof.
  unfold Store.contents, Store.clear, modify, with_mapping. cbn [snd mapping].
  rewrite lookup_insert_eq. reflexivity.
Qed.

End StoreFacts.

Lemma remove_first_length (x : addr) (l r : list addr) :
  Store.remove_first x l = Some r -> length l = S (length r).
Proof.
  revert r. induction l as [|y l IH]; intros r H; cbn in H; [discriminate|].
  destruct (decide (y = x)).
  - injection H as <-. reflexivity.
  - destruct (Store.remove_first x l) as [r'|]; [|discriminate].
    injection H as <-. cbn. f_equal. apply IH. reflexivity.
Qed.

Lemma remove_first_none (x : addr) (l : list addr) :
  Store.remove_first x l = None <-> ~ In x l.
Proof.
  induction l as [|y l IH]; cbn; [tauto|].
  destruct (decide (y = x)) as [->|Hne].
  - split; [discriminate|]. intros H. exfalso. apply H. left. reflexivity.
  - destruct (Store.remove_first x l) as [r|]; split; intros H.
    + discriminate.
    + assert (Some r = None) as Hr by (apply IH; tauto). discriminate.
    + intros [Hy|Hin]; [congruence|]. destruct IH as [IH _]. apply IH; auto.
    + reflexivity.
Qed.

(** What a Manager's calls come down to: the collection is looked up by the
    model's name, and the Query is over that collection. *)
Lemma plain_get_queryset (o : nat) (m : ModelClass) (w : World) :
  Manager.get_queryset {| oid := o; mtype := ManagerType; model := m |} w
  = (Ok (QuerySet.Query (__name__ m) m []), touched (__name__ m) w).
Proof. reflexivity. Qed.

Lemma related_get_queryset (o : nat) (m : ModelClass) (owner : addr) (w : World) :
  Manager.get_queryset {| oid := o; mtype := RelatedManagerType owner; model := m |} w
  = (Ok (QuerySet.Query (__name__ m) m [QuerySet.FilterBy [foreign_key (heap w owner)]]),
     touched (__name__ m) w).
Proof. reflexivity. Qed.

Lemma getattr_setattr_eq (o : Instance) (n : string) (v : value) :
  n <> "pk" -> getattr (setattr o n v) n = Some v.
Proof.
  intros Hn. unfold getattr, setattr. cbn [attrs].
  rewrite decide_False by exact Hn. apply lookup_insert_eq.
Qed.

Lemma getattr_setattr_ne (o : Instance) (n n' : string) (v : value) :
  n <> n' -> getattr (setattr o n v) n' = getattr o n'.
Proof.
  intros Hn. unfold getattr, setattr. cbn [attrs pk].
  destruct (decide (n' = "pk")); [reflexivity|].
  apply lookup_insert_ne. exact Hn.
Qed.

(** C3: [_add] returns the instance it was given, having set its [created]
    and [updated] to the one reading of the UTC clock, so that the two are
    equal, and having appended it to the collection of the manager's model,
    where a Manager of that model finds it; the instance keeps its identity,
    and no other instance and no other collection is touched. *)
Theorem add_stamps_appends_returns :
  forall (self : ManagerObj) (x : addr) (w : World),
    let name := __name__ (model self) in
    let w' := (Manager._add self x w).2 in
    let objects := {| oid := oid self; mtype := ManagerType; model := model self |} in
    (Manager._add self x w).1 = Ok x
    /\ getattr (heap w' x) "created" = Some (VDatetime (clock w))
    /\ getattr (heap w' x) "updated" = Some (VDatetime (clock w))
    /\ getattr (heap w' x) "created" = getattr (heap w' x) "updated"
    /\ Store.contents w' name = (Store.contents w name ++ [x])%list
    /\ denotes (Manager.all objects) w' w' x
    /\ (Manager.count objects w').1 = Ok (S (length (Store.contents w name)))
    /\ pk (heap w' x) = pk (heap w x)
    /\ (forall y : addr, y <> x -> heap w' y = heap w y)
    /\ (forall s : store_ref, s <> name -> Store.contents w' s = Store.contents w s).
Proof.
  intros self x w name w' objects.
  assert (Hheap : heap w' x
                  = setattr (setattr (heap w x) "created" (VDatetime (clock w)))
                      "updated" (VDatetime (clock w))).
  { subst w'. cbn. rewrite !decide_True by reflexivity. reflexivity. }
  assert (Hrun : w' = (Store.append name x
                         (touched name
                            (set_attribute x "updated" (VDatetime (clock w))
                               (set_attribute x "created" (VDatetime (clock w)) w).2).2)).2)
    by reflexivity.
  assert (Hcontents : Store.contents w' name = (Store.contents w name ++ [x])%list).
  { rewrite Hrun, appended_contents, touched_contents. reflexivity. }
  assert (Hcreated : getattr (heap w' x) "created" = Some (VDatetime (clock w))).
  { rewrite Hheap, getattr_setattr_ne by discriminate.
    apply getattr_setattr_eq. discriminate. }
  assert (Hupdated : getattr (heap w' x) "updated" = Some (VDatetime (clock w))).
  { rewrite Hheap. apply getattr_setattr_eq. discriminate. }
  split; [reflexivity|].
  split; [exact Hcreated|].
  split; [exact Hupdated|].
  split; [rewrite Hcreated, Hupdated; reflexivity|].
  split; [exact Hcontents|].
  split.
  { exists (QuerySet.Query name (model self) []). split; [reflexivity|].
    change (In x (Store.contents w' name)). rewrite Hcontents.
    apply in_or_app. right. left. reflexivity. }
  split.
  { unfold Manager.count, Manager.all, bind. subst objects.
    rewrite plain_get_queryset. cbn [fst snd QuerySet.count QuerySet.items].
    unfold QuerySet.count, QuerySet.items, gets, bind, ret. cbn [fst snd].
    rewrite touched_evaluate. cbn [QuerySet.evaluate fold_left]. fold name.
    rewrite Hcontents, length_app. cbn. f_equal. lia. }
  split; [rewrite Hheap; reflexivity|].
  split.
  { intros y Hy. subst w'. cbn. rewrite !decide_False by exact Hy. reflexivity. }
  intros s Hs. rewrite Hrun, appended_elsewhere by exact Hs.
  rewrite touched_contents. reflexivity.
Qed.

(** ** The query engine *)

Section QueryFacts.

Variable h : addr -> Instance.

Lemma apply_clause_incl (l : list addr) (c : QuerySet.clause) (x : addr) :
  In x (QuerySet.apply_clause h l c) -> In x l.
Proof.
  destruct c as [kw|kw]; cbn; intros H; apply filter_In in H; tauto.
Qed.

Lemma fold_clauses_incl (cs : list QuerySet.clause) (l : list addr) (x : addr) :
  In x (fold_left (QuerySet.apply_clause h) cs l) -> In x l.
Proof.
  revert l. induction cs as [|c cs IH]; intros l H; [exact H|].
  cbn in H. apply IH in H. eapply apply_clause_incl. exact H.
Qed.

Lemma holds_all_single (p : string * value) (a : addr) :
  QuerySet.holds_all h [p] a = QuerySet.holds h p a.
Proof. unfold QuerySet.holds_all. cbn. apply andb_true_r. Qed.


End QueryFacts.



Lemma evaluate_filter (w : World) (qs : QuerySet.t) (kw : QuerySet.kwargs) :
  QuerySet.evaluate w (QuerySet.filter qs kw)
  = List.filter (QuerySet.holds_all (heap w) kw) (QuerySet.evaluate w qs).
Proof.
  destruct qs as [s m cs|m]; [|reflexivity].
  cbn. rewrite fold_left_app. reflexivity.
Qed.

Lemma evaluate_exclude (w : World) (qs : QuerySet.t) (kw : QuerySet.kwargs) :
  QuerySet.evaluate w (QuerySet.exclude qs kw)
  = List.filter (fun a => negb (QuerySet.holds_all (heap w) kw a)) (QuerySet.evaluate w qs).
Proof.
  destruct qs as [s m cs|m]; [|reflexivity].
  cbn. rewrite fold_left_app. reflexivity.
Qed.

(** A Query whose first clause filters by one keyword denotes only
    instances the keyword holds of, whatever is chained after it. *)
Lemma evaluate_scoped (w : World) (s : store_ref) (m : ModelClass)
    (p : string * value) (cs : list QuerySet.clause) (x : addr) :
  In x (QuerySet.evaluate w (QuerySet.Query s m (QuerySet.FilterBy [p] :: cs))) ->
  QuerySet.holds (heap w) p x = true /\ In x (Store.contents w s).
Proof.
  cbn. intros H. apply fold_clauses_incl in H. cbn in H.
  apply filter_In in H. rewrite holds_all_single in H. tauto.
Qed.


Lemma extremum_empty (pick : addr * Z -> list (addr * Z) -> addr)
    (qs : QuerySet.t) (field_name : option string) (w : World) :
  QuerySet.evaluate w qs = [] ->
  QuerySet.extremum pick qs field_name w = (Ok None, w).
Proof.
  intros E. unfold QuerySet.extremum, QuerySet.items, gets, bind. cbn [fst snd].
  rewrite E. reflexivity.
Qed.


Lemma random_empty (qs : QuerySet.t) (w : World) :
  QuerySet.evaluate w qs = [] -> QuerySet.random qs w = (Ok None, w).
Proof.
  intros E. unfold QuerySet.random, QuerySet.items, gets, bind. cbn [fst snd].
  rewrite E. reflexivity.
Qed.

(** [get] with its outcome read off the instances the keywords hold of. *)
Lemma get_run (qs : QuerySet.t) (kw : QuerySet.kwargs) (w : World) :
  QuerySet.get qs kw w
  = (match List.filter (QuerySet.holds_all (heap w) kw) (QuerySet.evaluate w qs) with
     | [] => Raise DoesNotExistError
     | [x] => Ok x
     | _ :: _ :: _ => Raise MultipleObjectsError
     end, w).
Proof.
  unfold QuerySet.get, QuerySet.items, gets, bind. cbn [fst snd].
  rewrite evaluate_filter.
  destruct (List.filter _ _) as [|x [|y l]]; reflexivity.
Qed.


(** Every query a manager makes starts from the Query [all] returns. *)
Lemma manager_all (self : ManagerObj) (w : World) :
  Manager.all self w
  = (Ok (QuerySet.Query (__name__ (model self)) (model self) (scope self w)),
     touched (__name__ (model self)) w).
Proof.
  destruct self as [o [|instance] m]; reflexivity.
Qed.

Lemma via_all {A} (self : ManagerObj) (k : QuerySet.t -> M A) (w : World) :
  (qs <- Manager.all self ;; k qs) w
  = k (QuerySet.Query (__name__ (model self)) (model self) (scope self w))
      (touched (__name__ (model self)) w).
Proof. unfold bind. rewrite manager_all. reflexivity. Qed.

(** ** The Related Manager *)




(** ** The Manager's queries *)

(** C4: in every world, and for a Manager and a Related Manager alike,
    [first()] has the outcome of [earliest('created')] and [last()] the
    outcome of [latest('created')]: the same result or exception, and the
    same world left behind. *)
Theorem first_last_are_created_extrema :
  forall (self : ManagerObj) (w : World),
    Manager.first self w = Manager.earliest self (Some "created") w
    /\ Manager.last self w = Manager.latest self (Some "created") w.
Proof.
  intros self w. unfold Manager.first, Manager.last, Manager.earliest, Manager.latest.
  cbv zeta. rewrite !via_all. split; reflexivity.
Qed.

(** C5: [get] looks at the stored instances all its keywords hold of: with
    none it raises [DoesNotExistError], with exactly one it returns that
    instance, with more than one it raises [MultipleObjectsError]; the
    collection is left as it was. *)
Theorem get_is_strict :
  forall (o : nat) (m : ModelClass) (kw : QuerySet.kwargs) (w : World),
    let objects := {| oid := o; mtype := ManagerType; model := m |} in
    let found := List.filter (QuerySet.holds_all (heap w) kw)
                   (Store.contents w (__name__ m)) in
    (length found = 0 -> (Manager.get objects kw w).1 = Raise DoesNotExistError)
    /\ (forall x : addr, found = [x] -> (Manager.get objects kw w).1 = Ok x)
    /\ (1 < length found -> (Manager.get objects kw w).1 = Raise MultipleObjectsError)
    /\ Store.contents (Manager.get objects kw w).2 (__name__ m)
       = Store.contents w (__name__ m).
Proof.
  intros o m kw w objects found.
  assert (Hrun : Manager.get objects kw w
                 = (match found with
                    | [] => Raise DoesNotExistError
                    | [x] => Ok x
                    | _ :: _ :: _ => Raise MultipleObjectsError
                    end, touched (__name__ m) w)).
  { unfold Manager.get. rewrite via_all, get_run, touched_evaluate. reflexivity. }
  rewrite Hrun. cbn [fst snd]. split; [|split; [|split]].
  - intros H. destruct found; [reflexivity|discriminate].
  - intros x ->. reflexivity.
  - intros H. destruct found as [|x [|y l]]; cbn in H; [lia|lia|reflexivity].
  - apply touched_contents.
Qed.

(** C6: over an empty collection [earliest] and [latest], for any field
    name, [random], for any draw, [first] and [last] all return [None]; none
    of them raises. *)
Theorem empty_collection_gives_none :
  forall (self : ManagerObj) (w : World),
    Store.contents w (__name__ (model self)) = [] ->
    (forall field_name : option string,
        (Manager.earliest self field_name w).1 = Ok None)
    /\ (forall field_name : option string,
          (Manager.latest self field_name w).1 = Ok None)
    /\ (Manager.random self w).1 = Ok None
    /\ (Manager.first self w).1 = Ok None
    /\ (Manager.last self w).1 = Ok None.
Proof.
  intros self w Hempty.
  assert (E : QuerySet.evaluate (touched (__name__ (model self)) w)
                (QuerySet.Query (__name__ (model self)) (model self) (scope self w))
              = []).
  { rewrite touched_evaluate. unfold QuerySet.evaluate. rewrite Hempty.
    destruct self as [o [|instance] m]; reflexivity. }
  unfold Manager.earliest, Manager.latest, Manager.random, Manager.first, Manager.last.
  cbv zeta. repeat split; intros; rewrite via_all.
  - unfold QuerySet.earliest. rewrite extremum_empty by exact E. reflexivity.
  - unfold QuerySet.latest. rewrite extremum_empty by exact E. reflexivity.
  - rewrite random_empty by exact E. reflexivity.
  - unfold QuerySet.earliest. rewrite extremum_empty by exact E. reflexivity.
  - unfold QuerySet.latest. rewrite extremum_empty by exact E. reflexivity.
Qed.

(** C7, as the code has it: [__contains__] hands [get]'s exception on.  With
    no stored instance named [item] the membership test raises
    [DoesNotExistError], with several it raises [MultipleObjectsError], and
    no call of it returns [False]. *)
Theorem contains_raises_without_a_match :
  (Manager.__contains__ books (VStr "z") library).1 = Raise DoesNotExistError
  /\ (Manager.__contains__ books (VStr "z") empty_world).1 = Raise DoesNotExistError
  /\ (Manager.__contains__ books (VStr "a") library).1 = Raise MultipleObjectsError
  /\ (Manager.__contains__ books (VStr "b") library).1 = Ok true
  /\ (forall (self : ManagerObj) (item : value) (w : World),
        (Manager.__contains__ self item w).1 <> Ok false)
  /\ (forall (o : nat) (m : ModelClass) (item : value) (w : World),
        (Manager.__contains__ {| oid := o; mtype := ManagerType; model := m |} item w).1
        = match List.filter (QuerySet.holds_all (heap w) [("name", item)])
                  (Store.contents w (__name__ m)) with
          | [] => Raise DoesNotExistError
          | [_] => Ok true
          | _ :: _ :: _ => Raise MultipleObjectsError
          end).
Proof.
  split; [reflexivity|]. split; [reflexivity|].
  split; [reflexivity|]. split; [reflexivity|]. split.
  - intros self item w. unfold Manager.__contains__, bind.
    destruct (Manager.get self [("name", item)] w) as [[x|e] w']; cbn; discriminate.
  - intros o m item w. unfold Manager.__contains__, Manager.get, bind.
    rewrite manager_all, get_run, touched_evaluate. cbn [QuerySet.evaluate scope mtype fold_left].
    destruct (List.filter _ _) as [|x [|y l]]; reflexivity.
Qed.

(** ** One collection per model name *)

Lemma add_run (self : ManagerObj) (x : addr) (w : World) :
  Manager._add self x w
  = (Ok x,
     (Store.append (__name__ (model self)) x
        (touched (__name__ (model self))
           (set_attribute x "updated" (VDatetime (clock w))
              (set_attribute x "created" (VDatetime (clock w)) w).2).2)).2).
Proof. reflexivity. Qed.

Lemma add_contents (self : ManagerObj) (x : addr) (w : World) :
  Store.contents (Manager._add self x w).2 (__name__ (model self))
  = (Store.contents w (__name__ (model self)) ++ [x])%list.
Proof. rewrite add_run. cbn [snd]. rewrite appended_contents, touched_contents. reflexivity. Qed.

Lemma clear_contents (self : ManagerObj) (w : World) :
  Manager._clear self w = (Ok tt, (Store.clear (__name__ (model self))
                                     (touched (__name__ (model self)) w)).2)
  /\ Store.contents (Manager._clear self w).2 (__name__ (model self)) = [].
Proof. split; [reflexivity|]. apply cleared_contents. Qed.

Lemma delete_run (self : ManagerObj) (x : addr) (w : World) :
  let name := __name__ (model self) in
  Manager._delete self x w
  = match Store.remove_first x (Store.contents w name) with
    | Some l => (Ok tt, with_mapping (fun mp => <[name := l]> mp) (touched name w))
    | None => (Raise NotFoundError, touched name w)
    end.
Proof.
  intros name. unfold Manager._delete, Manager.store, bind. fold name.
  change (ModelStoreMapping.get name w) with (Ok name, touched name w).
  cbv beta iota. unfold Store.remove. rewrite touched_contents. reflexivity.
Qed.

Lemma count_run (o : nat) (m : ModelClass) (w : World) :
  Manager.count {| oid := o; mtype := ManagerType; model := m |} w
  = (Ok (length (Store.contents w (__name__ m))), touched (__name__ m) w).
Proof.
  unfold Manager.count. rewrite via_all.
  unfold QuerySet.count, QuerySet.items, gets, bind, ret. cbn [fst snd].
  rewrite touched_evaluate. reflexivity.
Qed.

Lemma plain_get_run (o : nat) (m : ModelClass) (kw : QuerySet.kwargs) (w : World) :
  Manager.get {| oid := o; mtype := ManagerType; model := m |} kw w
  = (one_of (List.filter (QuerySet.holds_all (heap w) kw)
               (Store.contents w (__name__ m))),
     touched (__name__ m) w).
Proof.
  unfold Manager.get. rewrite via_all, get_run, touched_evaluate. reflexivity.
Qed.

(** C10: a manager object holds its model and nothing of the collection.
    Its [store] is the mapping's entry for the model's name, looked up at
    each call, so [all], [count] and [get] read the collection as it is now
    and [_add], [_clear] and [_delete] change that same collection; two
    manager objects of one model have the same outcomes in every world, and
    what one adds, clears or deletes the other observes: [get] answers from
    the instances now in the collection that its keywords hold of, the
    added one included, and finds none once the collection is cleared. *)
Theorem managers_share_the_collection :
  forall (o1 o2 : nat) (t1 t2 : manager_type) (m : ModelClass)
         (x : addr) (kw : QuerySet.kwargs) (w : World),
    let name := __name__ m in
    let a := {| oid := o1; mtype := t1; model := m |} in
    let b := {| oid := o2; mtype := t2; model := m |} in
    let a0 := {| oid := o1; mtype := ManagerType; model := m |} in
    let b0 := {| oid := o2; mtype := ManagerType; model := m |} in
    Manager.store a w = ModelStoreMapping.get name w
    /\ Manager.store a w = Manager.store b w
    /\ Manager._add a x w = Manager._add b x w
    /\ Manager._clear a w = Manager._clear b w
    /\ Manager._delete a x w = Manager._delete b x w
    /\ Manager.all a0 w = Manager.all b0 w
    /\ Manager.count a0 w = Manager.count b0 w
    /\ Manager.get a0 kw w = Manager.get b0 kw w
    /\ (Manager.get a0 kw w).1
       = one_of (List.filter (QuerySet.holds_all (heap w) kw) (Store.contents w name))
    /\ (Manager.get b0 kw (Manager._add a x w).2).1
       = one_of (List.filter (QuerySet.holds_all (heap (Manager._add a x w).2) kw)
                   (Store.contents w name ++ [x])%list)
    /\ (Manager.get b0 kw (Manager._clear a w).2).1 = Raise DoesNotExistError
    /\ (exists qs : QuerySet.t,
          (Manager.all a0 w).1 = Ok qs
          /\ forall w' : World, QuerySet.evaluate w' qs = Store.contents w' name)
    /\ (Manager.count a0 w).1 = Ok (length (Store.contents w name))
    /\ Store.contents (Manager._add a x w).2 name = (Store.contents w name ++ [x])%list
    /\ (Manager.count b0 (Manager._add a x w).2).1
       = Ok (S (length (Store.contents w name)))
    /\ Store.contents (Manager._clear a w).2 name = []
    /\ (Manager.count b0 (Manager._clear a w).2).1 = Ok 0
    /\ (forall l : list addr,
          Store.remove_first x (Store.contents w name) = Some l ->
          (Manager._delete a x w).1 = Ok tt
          /\ Store.contents (Manager._delete a x w).2 name = l
          /\ (Manager.count b0 (Manager._delete a x w).2).1 = Ok (length l))
    /\ (~ In x (Store.contents w name) ->
        (Manager._delete a x w).1 = Raise NotFoundError
        /\ Store.contents (Manager._delete a x w).2 name = Store.contents w name).
Proof.
  intros o1 o2 t1 t2 m x kw w name a b a0 b0.
  do 8 (split; [reflexivity|]).
  split; [unfold a0; rewrite plain_get_run; reflexivity|].
  split.
  { unfold b0. rewrite plain_get_run. cbn [fst]. fold name.
    rewrite (add_contents a). reflexivity. }
  split.
  { unfold b0. rewrite plain_get_run. cbn [fst]. fold name.
    destruct (clear_contents a w) as [_ Hc].
    change (__name__ (model a)) with name in Hc. rewrite Hc. reflexivity. }
  split.
  { exists (QuerySet.Query name m []). split; reflexivity. }
  split; [unfold a0; rewrite count_run; reflexivity|].
  split; [apply (add_contents a)|].
  split.
  { unfold b0. rewrite count_run. cbn [fst]. fold name. f_equal.
    rewrite (add_contents a), length_app.
    change (__name__ (model a)) with name. cbn [length]. lia. }
  split; [apply (clear_contents a)|].
  split.
  { unfold b0. rewrite count_run. cbn [fst]. fold name.
    destruct (clear_contents a w) as [_ Hc].
    change (__name__ (model a)) with name in Hc. rewrite Hc. reflexivity. }
  split.
  - intros l Hl. rewrite (delete_run a). cbn [model a]. fold name. rewrite Hl.
    cbn [fst snd].
    assert (Store.contents
              (with_mapping (fun mp => <[name := l]> mp) (touched name w)) name = l) as Hc.
    { unfold Store.contents, with_mapping. cbn [mapping].
      rewrite lookup_insert_eq. reflexivity. }
    split; [reflexivity|]. split; [exact Hc|].
    unfold b0. rewrite count_run. cbn [fst]. fold name. rewrite Hc. reflexivity.
  - intros Hnot. rewrite (delete_run a). cbn [model a]. fold name.
    apply remove_first_none in Hnot. rewrite Hnot. cbn [fst snd].
    split; [reflexivity|]. apply touched_contents.
Qed.

(** * Further properties of the module *)

(** ** The class-only descriptor under any order of accesses *)

Lemma mixed_accesses_cached (m : ManagerObj)
    (accesses : list (option addr * ModelClass)) (w : World) :
  mixed_accesses {| ManagerDescriptor.manager := Some m |} accesses w
  = (map (answer (Some m)) accesses, ({| ManagerDescriptor.manager := Some m |}, w)).
Proof.
  induction accesses as [|[[i|] owner] rest IH]; [reflexivity| |].
  - cbn [mixed_accesses ManagerDescriptor.__get__ raise]. cbv zeta.
    rewrite IH. reflexivity.
  - cbn [mixed_accesses]. rewrite cached_manager_returned. cbv zeta.
    cbn [fst snd]. rewrite IH. reflexivity.
Qed.

(** X1: through one descriptor, whatever the order of instance-side and
    class-side accesses, every instance-side access raises and changes
    nothing; the first class-side access builds the one Manager, bound to
    that access's owner, and every class-side access returns that object.
    With no class-side access nothing is built and the descriptor still
    holds [None]. *)
Theorem descriptor_under_mixed_accesses :
  forall (accesses : list (option addr * ModelClass)) (w : World),
    mixed_accesses ManagerDescriptor.__init__ accesses w
    = match first_class_owner accesses with
      | None => (map (answer None) accesses, (ManagerDescriptor.__init__, w))
      | Some owner =>
          let m := {| oid := next_oid w; mtype := ManagerType; model := owner |} in
          (map (answer (Some m)) accesses,
           ({| ManagerDescriptor.manager := Some m |}, (fresh_oid w).2))
      end.
Proof.
  induction accesses as [|[[i|] owner] rest IH]; intros w; [reflexivity| |].
  - cbn [mixed_accesses ManagerDescriptor.__get__ raise first_class_owner]. cbv zeta.
    rewrite IH. destruct (first_class_owner rest); reflexivity.
  - cbn [first_class_owner mixed_accesses].
    change (ManagerDescriptor.__get__ ManagerDescriptor.__init__ None owner w)
      with (Ok (Some {| oid := next_oid w; mtype := ManagerType; model := owner |},
                {| ManagerDescriptor.manager :=
                     Some {| oid := next_oid w; mtype := ManagerType; model := owner |} |}),
            (fresh_oid w).2).
    cbv zeta. cbn [fst snd]. rewrite mixed_accesses_cached. reflexivity.
Qed.

(** ** [__repr__] *)

Lemma append_tail_inj (s s' : string) (c : ascii) :
  s ++ String c EmptyString = s' ++ String c EmptyString -> s = s'.
Proof.
  revert s'. induction s as [|a s IH]; intros [|a' s'] H; cbn in H.
  - reflexivity.
  - injection H as _ H. destruct s'; discriminate H.
  - injection H as _ H. destruct s; discriminate H.
  - injection H as -> H. f_equal. apply IH. exact H.
Qed.

(** X2: the text [__repr__] gives tells the manager's class and the name of
    its model, and nothing more: two manager objects have the same text
    exactly when both are Managers or both Related Managers and their
    models have the same name, whatever their identities, their owning
    instances and the identities of their model classes. *)
Theorem repr_tells_class_and_model_name :
  forall a b : ManagerObj,
    Manager.__repr__ a = Manager.__repr__ b
    <-> is_related a = is_related b /\ __name__ (model a) = __name__ (model b).
Proof.
  intros [oa ta ma] [ob tb mb]. unfold Manager.__repr__, is_related.
  cbn [mtype model]. split.
  - destruct ta as [|ia], tb as [|ib]; cbn; intros H;
      try discriminate H; injection H as H; apply append_tail_inj in H; auto.
  - intros [Hk Hn]. rewrite Hn.
    destruct ta as [|ia], tb as [|ib]; try discriminate Hk; reflexivity.
Qed.

(** ** What [_add] changes and what it leaves *)

Lemma add_heap_at (self : ManagerObj) (x : addr) (w : World) :
  heap (Manager._add self x w).2 x
  = setattr (setattr (heap w x) "created" (VDatetime (clock w)))
      "updated" (VDatetime (clock w)).
Proof. cbn. rewrite !decide_True by reflexivity. reflexivity. Qed.

Lemma add_heap_other (self : ManagerObj) (x y : addr) (w : World) :
  y <> x -> heap (Manager._add self x w).2 y = heap w y.
Proof. intros Hy. cbn. rewrite !decide_False by exact Hy. reflexivity. Qed.

Lemma add_getattr (self : ManagerObj) (x y : addr) (n : string) (w : World) :
  n <> "created" -> n <> "updated" ->
  getattr (heap (Manager._add self x w).2 y) n = getattr (heap w y) n.
Proof.
  intros Hc Hu. destruct (decide (y = x)) as [->|Hy].
  - rewrite add_heap_at, !getattr_setattr_ne by congruence. reflexivity.
  - rewrite add_heap_other by exact Hy. reflexivity.
Qed.

Lemma add_identity (self : ManagerObj) (x y : addr) (w : World) :
  itype (heap (Manager._add self x w).2 y) = itype (heap w y)
  /\ pk (heap (Manager._add self x w).2 y) = pk (heap w y).
Proof.
  destruct (decide (y = x)) as [->|Hy].
  - rewrite add_heap_at. split; reflexivity.
  - rewrite add_heap_other by exact Hy. split; reflexivity.
Qed.

Lemma add_resolve (self : ManagerObj) (x : addr) (w : World)
    (path : list string) (v : value) :
  ~ In "created" path -> ~ In "updated" path ->
  QuerySet.resolve (heap (Manager._add self x w).2) path v
  = QuerySet.resolve (heap w) path v.
Proof.
  revert v. induction path as [|f rest IH]; intros v Hc Hu; [reflexivity|].
  cbn [QuerySet.resolve]. destruct v as [| | | |a]; try reflexivity.
  assert (f <> "created") as Hfc by (intros ->; apply Hc; left; reflexivity).
  assert (f <> "updated") as Hfu by (intros ->; apply Hu; left; reflexivity).
  rewrite add_getattr by assumption.
  destruct (getattr (heap w a) f) as [v'|]; [|reflexivity].
  apply IH; intros H; [apply Hc|apply Hu]; right; exact H.
Qed.

(** X3: [_add] writes the two timestamps and nothing else of the instance:
    every other attribute of every instance, and each instance's type and
    [pk], read the same after the call; so a lookup that goes through
    neither [created] nor [updated] gives what it gave before, and the
    clock and the identities handed out are untouched. *)
Theorem add_writes_only_the_timestamps :
  forall (self : ManagerObj) (x y : addr) (n : string)
         (path : list string) (v : value) (w : World),
    n <> "created" -> n <> "updated" ->
    ~ In "created" path -> ~ In "updated" path ->
    let w' := (Manager._add self x w).2 in
    getattr (heap w' y) n = getattr (heap w y) n
    /\ itype (heap w' y) = itype (heap w y)
    /\ pk (heap w' y) = pk (heap w y)
    /\ QuerySet.resolve (heap w') path v = QuerySet.resolve (heap w) path v
    /\ clock w' = clock w
    /\ next_oid w' = next_oid w.
Proof.
  intros self x y n path v w Hc Hu Hpc Hpu w'. subst w'.
  split; [apply add_getattr; assumption|].
  split; [apply add_identity|]. split; [apply add_identity|].
  split; [apply add_resolve; assumption|]. split; reflexivity.
Qed.

(** X4: [_add] does not look whether the instance is stored already: a
    second [_add] of the same instance, at a later clock reading [t], stores
    it a second time, so that a Manager counts two more than before the
    first, and overwrites [created] as well as [updated] with [t]. *)
Theorem add_twice_duplicates_and_restamps :
  forall (self : ManagerObj) (x : addr) (t : Z) (w : World),
    let name := __name__ (model self) in
    let objects := {| oid := oid self; mtype := ManagerType; model := model self |} in
    let w1 := (Manager._add self x w).2 in
    let w2 := (Manager._add self x (with_clock t w1)).2 in
    (Manager._add self x (with_clock t w1)).1 = Ok x
    /\ Store.contents w2 name = (Store.contents w name ++ [x; x])%list
    /\ (Manager.count objects w2).1 = Ok (S (S (length (Store.contents w name))))
    /\ getattr (heap w2 x) "created" = Some (VDatetime t)
    /\ getattr (heap w2 x) "updated" = Some (VDatetime t).
Proof.
  intros self x t w name objects w1 w2.
  assert (Hc : Store.contents w2 name = (Store.contents w name ++ [x; x])%list).
  { subst w2. unfold name. rewrite add_contents.
    change (Store.contents (with_clock t w1) (__name__ (model self)))
      with (Store.contents w1 (__name__ (model self))).
    subst w1. rewrite add_contents, <- app_assoc. reflexivity. }
  split; [reflexivity|]. split; [exact Hc|]. split.
  { unfold objects. rewrite count_run. cbn [fst]. fold name.
    rewrite Hc, length_app. cbn [length]. f_equal. lia. }
  subst w2. rewrite add_heap_at.
  change (clock (with_clock t w1)) with t. split.
  - rewrite getattr_setattr_ne by discriminate. apply getattr_setattr_eq. discriminate.
  - apply getattr_setattr_eq. discriminate.
Qed.

(** ** [_delete] and [_clear] *)

Lemma remove_first_split (x : addr) (l1 l2 : list addr) :
  ~ In x l1 -> Store.remove_first x (l1 ++ x :: l2)%list = Some (l1 ++ l2)%list.
Proof.
  induction l1 as [|y l1 IH]; intros Hnot; cbn.
  - rewrite decide_True by reflexivity. reflexivity.
  - rewrite decide_False by (intros ->; apply Hnot; left; reflexivity).
    rewrite IH by (intros H; apply Hnot; right; exact H). reflexivity.
Qed.

Lemma remove_first_some (x : addr) (l : list addr) :
  In x l -> exists r, Store.remove_first x l = Some r.
Proof.
  intros Hin. destruct (Store.remove_first x l) as [r|] eqn:E; [eauto|].
  apply remove_first_none in E. contradiction.
Qed.

Lemma remove_first_in (x : addr) (l r : list addr) :
  Store.remove_first x l = Some r -> In x l.
Proof.
  revert r. induction l as [|y l IH]; intros r H; cbn in H; [discriminate|].
  destruct (decide (y = x)) as [->|Hne]; [left; reflexivity|].
  destruct (Store.remove_first x l) as [r'|]; [|discriminate].
  right. eapply IH. reflexivity.
Qed.

Lemma add_contents_elsewhere (self : ManagerObj) (x : addr) (w : World) (s : store_ref) :
  s <> __name__ (model self) ->
  Store.contents (Manager._add self x w).2 s = Store.contents w s.
Proof.
  intros Hs. rewrite add_run. cbn [snd].
  rewrite appended_elsewhere by exact Hs. rewrite touched_contents. reflexivity.
Qed.

Lemma delete_heap (self : ManagerObj) (x : addr) (w : World) :
  heap (Manager._delete self x w).2 = heap w.
Proof.
  rewrite delete_run. cbv zeta.
  destruct (Store.remove_first x _); reflexivity.
Qed.

Lemma delete_contents_elsewhere (self : ManagerObj) (x : addr) (w : World)
    (s : store_ref) :
  s <> __name__ (model self) ->
  Store.contents (Manager._delete self x w).2 s = Store.contents w s.
Proof.
  intros Hs. rewrite delete_run. cbv zeta.
  destruct (Store.remove_first x _) as [l|]; cbn [snd].
  - unfold Store.contents at 1, with_mapping. cbn [mapping].
    rewrite lookup_insert_ne by congruence. apply touched_contents.
  - apply touched_contents.
Qed.

Lemma delete_contents (self : ManagerObj) (x : addr) (w : World) (l : list addr) :
  Store.remove_first x (Store.contents w (__name__ (model self))) = Some l ->
  (Manager._delete self x w).1 = Ok tt
  /\ Store.contents (Manager._delete self x w).2 (__name__ (model self)) = l.
Proof.
  intros Hl. rewrite delete_run. cbv zeta. rewrite Hl. cbn [fst snd].
  split; [reflexivity|].
  unfold Store.contents, with_mapping. cbn [mapping].
  rewrite lookup_insert_eq. reflexivity.
Qed.

(** X5: [_delete] succeeds exactly when the instance is in the collection
    and raises [NotFoundError] exactly when it is not; on success it takes
    out one entry, the first occurrence of the instance, and keeps the
    others in their order, so the collection is one shorter; it never
    touches an instance or another model's collection. *)
Theorem delete_takes_out_the_first_occurrence :
  forall (self : ManagerObj) (x : addr) (w : World),
    let name := __name__ (model self) in
    let w' := (Manager._delete self x w).2 in
    ((Manager._delete self x w).1 = Ok tt <-> In x (Store.contents w name))
    /\ ((Manager._delete self x w).1 = Raise NotFoundError
        <-> ~ In x (Store.contents w name))
    /\ (forall l1 l2 : list addr,
          Store.contents w name = (l1 ++ x :: l2)%list -> ~ In x l1 ->
          Store.contents w' name = (l1 ++ l2)%list)
    /\ (In x (Store.contents w name) ->
        S (length (Store.contents w' name)) = length (Store.contents w name))
    /\ heap w' = heap w
    /\ (forall s : store_ref, s <> name -> Store.contents w' s = Store.contents w s).
Proof.
  intros self x w name w'.
  assert (Hcases : (In x (Store.contents w name)
                    /\ (Manager._delete self x w).1 = Ok tt)
                   \/ (~ In x (Store.contents w name)
                       /\ (Manager._delete self x w).1 = Raise NotFoundError)).
  { rewrite (delete_run self). cbv zeta. fold name.
    destruct (Store.remove_first x (Store.contents w name)) as [l|] eqn:E.
    - left. split; [|reflexivity]. eapply remove_first_in. exact E.
    - right. split; [|reflexivity]. apply remove_first_none. exact E. }
  split.
  { destruct Hcases as [[Hin Hr]|[Hnot Hr]]; rewrite Hr; split; intros H;
      try assumption; try reflexivity; try discriminate; contradiction. }
  split.
  { destruct Hcases as [[Hin Hr]|[Hnot Hr]]; rewrite Hr; split; intros H;
      try assumption; try reflexivity; try discriminate; contradiction. }
  split.
  { intros l1 l2 Hsplit Hnot.
    apply (delete_contents self x w). fold name.
    rewrite Hsplit. apply remove_first_split. exact Hnot. }
  split.
  { intros Hin. destruct (remove_first_some x _ Hin) as [r Hr].
    destruct (delete_contents self x w r Hr) as [_ Hc].
    subst w'. fold name in Hc. rewrite Hc.
    symmetry. eapply remove_first_length. exact Hr. }
  split; [apply delete_heap|].
  intros s Hs. apply delete_contents_elsewhere. exact Hs.
Qed.

(** X6: for an instance that is not in the collection, [_add] followed by
    [_delete] gives back every collection as it was; the instance keeps the
    timestamps [_add] gave it. *)
Theorem add_then_delete_restores_the_collection :
  forall (self : ManagerObj) (x : addr) (w : World),
    ~ In x (Store.contents w (__name__ (model self))) ->
    let w1 := (Manager._add self x w).2 in
    let w2 := (Manager._delete self x w1).2 in
    (Manager._delete self x w1).1 = Ok tt
    /\ (forall s : store_ref, Store.contents w2 s = Store.contents w s)
    /\ getattr (heap w2 x) "created" = Some (VDatetime (clock w))
    /\ getattr (heap w2 x) "updated" = Some (VDatetime (clock w)).
Proof.
  intros self x w Hnot w1 w2.
  assert (Hr : Store.remove_first x (Store.contents w1 (__name__ (model self)))
               = Some (Store.contents w (__name__ (model self)))).
  { subst w1. rewrite add_contents.
    rewrite (remove_first_split x _ []) by exact Hnot.
    rewrite app_nil_r. reflexivity. }
  destruct (delete_contents self x w1 _ Hr) as [Hok Hc].
  split; [exact Hok|]. split.
  { intros s. destruct (decide (s = __name__ (model self))) as [->|Hs].
    - exact Hc.
    - subst w2. rewrite delete_contents_elsewhere by exact Hs.
      subst w1. apply add_contents_elsewhere. exact Hs. }
  subst w2. rewrite delete_heap. subst w1. rewrite add_heap_at. split.
  - rewrite getattr_setattr_ne by discriminate. apply getattr_setattr_eq. discriminate.
  - apply getattr_setattr_eq. discriminate.
Qed.

(** X7: [_clear] empties the collection of the manager's model and nothing
    else: no instance is touched, no other collection changes; clearing
    again changes nothing; an instance added next is the only one stored,
    and deleting from the cleared collection raises [NotFoundError]. *)
Theorem clear_forgets_without_touching :
  forall (self : ManagerObj) (x : addr) (w : World),
    let name := __name__ (model self) in
    let w1 := (Manager._clear self w).2 in
    (Manager._clear self w).1 = Ok tt
    /\ Store.contents w1 name = []
    /\ heap w1 = heap w
    /\ (forall s : store_ref, s <> name -> Store.contents w1 s = Store.contents w s)
    /\ (forall s : store_ref,
          Store.contents (Manager._clear self w1).2 s = Store.contents w1 s)
    /\ Store.contents (Manager._add self x w1).2 name = [x]
    /\ (Manager._delete self x w1).1 = Raise NotFoundError.
Proof.
  intros self x w name w1.
  assert (Hempty : forall v, Store.contents (Manager._clear self v).2 name = []).
  { intros v. apply (clear_contents self v). }
  assert (Hother : forall v s, s <> name ->
             Store.contents (Manager._clear self v).2 s = Store.contents v s).
  { intros v s Hs. destruct (clear_contents self v) as [-> _]. cbn [snd].
    unfold Store.contents at 1, Store.clear, modify, with_mapping. cbn [snd mapping].
    rewrite lookup_insert_ne by (intros E; apply Hs; symmetry; exact E).
    apply touched_contents. }
  split; [reflexivity|]. split; [apply Hempty|]. split; [reflexivity|].
  split; [apply Hother|]. split.
  { intros s. destruct (decide (s = name)) as [->|Hs].
    - rewrite Hempty. symmetry. apply Hempty.
    - apply Hother. exact Hs. }
  split.
  { unfold name. rewrite add_contents. fold name. subst w1. rewrite Hempty. reflexivity. }
  rewrite (delete_run self). cbv zeta. fold name. subst w1. rewrite Hempty. reflexivity.
Qed.

(** ** Queries read and do not write *)

Lemma same_data_touched (name : string) (w : World) : same_data w (touched name w).
Proof.
  split; [|split; reflexivity]. intros s. apply touched_contents.
Qed.

Lemma extremum_world (pick : addr * Z -> list (addr * Z) -> addr)
    (qs : QuerySet.t) (field_name : option string) (w : World) :
  (QuerySet.extremum pick qs field_name w).2 = w.
Proof.
  unfold QuerySet.extremum, QuerySet.items, gets, bind. cbv zeta. cbn [fst snd].
  destruct (QuerySet.evaluate w qs) as [|a l]; [reflexivity|].
  destruct (QuerySet.keyed _ _ _) as [[|k ks]|]; reflexivity.
Qed.

Lemma random_world (qs : QuerySet.t) (w : World) : (QuerySet.random qs w).2 = w.
Proof.
  unfold QuerySet.random, QuerySet.items, gets, bind. cbn [fst snd].
  destruct (QuerySet.evaluate w qs); reflexivity.
Qed.

Lemma get_world (qs : QuerySet.t) (kw : QuerySet.kwargs) (w : World) :
  (QuerySet.get qs kw w).2 = w.
Proof. rewrite get_run. reflexivity. Qed.

(** X8: none of the Manager's query methods, through a Manager or a Related
    Manager, whether it returns or raises, changes what any collection
    holds, touches an instance or builds an object: [all], [count],
    [earliest], [exclude], [filter], [first], [get], [last], [latest],
    [none], [random] and the membership test. *)
Theorem queries_change_nothing :
  forall (self : ManagerObj) (kw : QuerySet.kwargs) (field_name : option string)
         (item : value) (w : World),
    same_data w (Manager.all self w).2
    /\ same_data w (Manager.count self w).2
    /\ same_data w (Manager.earliest self field_name w).2
    /\ same_data w (Manager.exclude self kw w).2
    /\ same_data w (Manager.filter self kw w).2
    /\ same_data w (Manager.first self w).2
    /\ same_data w (Manager.get self kw w).2
    /\ same_data w (Manager.last self w).2
    /\ same_data w (Manager.latest self field_name w).2
    /\ same_data w (Manager.none self w).2
    /\ same_data w (Manager.random self w).2
    /\ same_data w (Manager.__contains__ self item w).2.
Proof.
  intros self kw f item w.
  pose proof (same_data_touched (__name__ (model self)) w) as Ht.
  assert (Hget : forall kw', (Manager.get self kw' w).2 = touched (__name__ (model self)) w).
  { intros kw'. unfold Manager.get. rewrite via_all. apply get_world. }
  split; [rewrite manager_all; exact Ht|].
  split; [unfold Manager.count; rewrite via_all; exact Ht|].
  split.
  { unfold Manager.earliest. cbv zeta. rewrite via_all.
    unfold QuerySet.earliest. rewrite extremum_world. exact Ht. }
  split; [unfold Manager.exclude; rewrite via_all; exact Ht|].
  split; [unfold Manager.filter; rewrite via_all; exact Ht|].
  split.
  { unfold Manager.first. rewrite via_all.
    unfold QuerySet.earliest. rewrite extremum_world. exact Ht. }
  split; [rewrite Hget; exact Ht|].
  split.
  { unfold Manager.last. rewrite via_all.
    unfold QuerySet.latest. rewrite extremum_world. exact Ht. }
  split.
  { unfold Manager.latest. cbv zeta. rewrite via_all.
    unfold QuerySet.latest. rewrite extremum_world. exact Ht. }
  split; [split; [|split]; reflexivity|].
  split; [unfold Manager.random; rewrite via_all, random_world; exact Ht|].
  unfold Manager.__contains__, bind.
  specialize (Hget [("name", item)]).
  destruct (Manager.get self [("name", item)] w) as [[x|e] w'];
    cbn [snd] in Hget |- *; rewrite Hget; exact Ht.
Qed.

(** ** The Related Manager against the Manager *)

Lemma filter_twice {A} (f g : A -> bool) (l : list A) :
  List.filter f (List.filter g l) = List.filter (fun a => g a && f a) l.
Proof.
  induction l as [|a l IH]; [reflexivity|]. cbn.
  destruct (g a); cbn; [destruct (f a)|]; rewrite IH; reflexivity.
Qed.

(** X9: when the caller's keywords do not name the owner's foreign key,
    [get] through the Related Manager of the owner has the outcome of [get]
    through the Manager with the foreign-key keyword passed besides the
    caller's: the same instance or the same exception, and the same world. *)
Theorem related_get_is_get_with_the_foreign_key :
  forall (o o' : nat) (m : ModelClass) (owner : addr)
         (kw : QuerySet.kwargs) (w : World),
    ~ In (foreign_key (heap w owner)).1 (map fst kw) ->
    Manager.get {| oid := o; mtype := RelatedManagerType owner; model := m |} kw w
    = Manager.get {| oid := o'; mtype := ManagerType; model := m |}
        (foreign_key (heap w owner) :: kw) w.
Proof.
  intros o o' m owner kw w _. unfold Manager.get. rewrite !via_all, !get_run.
  cbn [model scope mtype QuerySet.evaluate fold_left QuerySet.apply_clause].
  rewrite filter_twice. f_equal.
  erewrite filter_ext; [reflexivity|].
  intros a. unfold QuerySet.holds_all. cbn [forallb].
  rewrite andb_true_r. reflexivity.
Qed.

(** X10: [_add] through a Related Manager stores the instance but does not
    bind it to the owner.  When the foreign-key lookup goes through neither
    [created] nor [updated], the instance is among those the Related Manager
    finds after the call exactly when the foreign-key keyword held of it
    before; the Manager of the model finds it either way. *)
Theorem add_through_related_manager_does_not_attach :
  forall (o o' : nat) (m : ModelClass) (owner x : addr) (w : World),
    let related := {| oid := o; mtype := RelatedManagerType owner; model := m |} in
    let objects := {| oid := o'; mtype := ManagerType; model := m |} in
    let fk := foreign_key (heap w owner) in
    let w' := (Manager._add related x w).2 in
    ~ In "created" (QuerySet.split_lookup fk.1) ->
    ~ In "updated" (QuerySet.split_lookup fk.1) ->
    (denotes (Manager.all related) w' w' x <-> QuerySet.holds (heap w) fk x = true)
    /\ denotes (Manager.all objects) w' w' x.
Proof.
  intros o o' m owner x w related objects fk w' Hc Hu.
  assert (Hin : In x (Store.contents w' (__name__ m))).
  { subst w'. rewrite (add_contents related). apply in_or_app. right. left. reflexivity. }
  assert (Hfk : foreign_key (heap w' owner) = fk).
  { unfold foreign_key, fk. subst w'.
    destruct (add_identity related x owner w) as [-> ->]. reflexivity. }
  assert (Hholds : QuerySet.holds (heap w') fk x = QuerySet.holds (heap w) fk x).
  { unfold QuerySet.holds. subst w'. rewrite add_resolve by assumption. reflexivity. }
  split; [split|].
  - intros (qs & Hqs & Hx). rewrite manager_all in Hqs. cbn [fst] in Hqs.
    injection Hqs as <-. cbn [scope mtype related] in Hx. rewrite Hfk in Hx.
    apply evaluate_scoped in Hx. rewrite <- Hholds. tauto.
  - intros Hh. eexists. split; [rewrite manager_all; reflexivity|].
    cbn [scope mtype related model QuerySet.evaluate fold_left QuerySet.apply_clause].
    rewrite Hfk. apply filter_In. split; [exact Hin|].
    rewrite holds_all_single, Hholds. exact Hh.
  - eexists. split; [rewrite manager_all; reflexivity|]. exact Hin.
Qed.

End Properties.

(** * The properties at work on a small library *)

#[local] Existing Instance ascii_lower.

Example deny_instance_side_message :
  (ManagerDescriptor.__get__ ManagerDescriptor.__init__ (Some 2) Book library).1
  = Raise (AttributeError "Manager isn't accessible via Book instances").
Proof. reflexivity. Qed.

Example deny_class_side_message :
  (RelatedManagerDescriptor.__get__ (RelatedManagerDescriptor.__init__ Book)
     None Author library).1
  = Raise (AttributeError "RelatedManager isn't accessible via Author class").
Proof. reflexivity. Qed.

Example one_manager_for_three_accesses :
  (ManagerDescriptor.class_accesses ManagerDescriptor.__init__ [Book; Book; Book] library).1
  = Ok ([Some books; Some books; Some books],
        {| ManagerDescriptor.manager := Some books |}).
Proof. reflexivity. Qed.

Lemma related_manager_fresh_on_every_access_witness :
  let rd := RelatedManagerDescriptor.__init__ Book in
  let later := (fresh_oid (fresh_oid library).2).2 in
  (next_oid library < next_oid later)%nat
  /\ (RelatedManagerDescriptor.__get__ rd (Some 0) Author later).1
     <> Ok {| oid := 0; mtype := RelatedManagerType 0; model := Book |}.
Proof.
  split; [vm_compute; lia|].
  apply (related_manager_fresh_on_every_access
           (RelatedManagerDescriptor.__init__ Book) 0 Author library).
  vm_compute. lia.
Defined.

Example two_related_managers :
  let rd := RelatedManagerDescriptor.__init__ Book in
  let r1 := RelatedManagerDescriptor.__get__ rd (Some 0) Author library in
  let r2 := RelatedManagerDescriptor.__get__ rd (Some 0) Author r1.2 in
  r1.1 = Ok {| oid := 0; mtype := RelatedManagerType 0; model := Book |}
  /\ r2.1 = Ok {| oid := 1; mtype := RelatedManagerType 0; model := Book |}.
Proof. split; reflexivity. Qed.

Lemma add_stamps_appends_returns_witness :
  let w' := (Manager._add books 5 library).2 in
  2 <> 5
  /\ heap w' 2 = heap library 2
  /\ "Author" <> "Book"
  /\ Store.contents w' "Author" = Store.contents library "Author"
  /\ Store.contents w' "Book" = [2; 3; 4; 5].
Proof.
  pose proof (add_stamps_appends_returns books 5 library) as H. cbv zeta in H.
  destruct H as (_ & _ & _ & _ & Hc & _ & _ & _ & Hh & Hs).
  split; [lia|]. split; [apply Hh; lia|].
  split; [discriminate|]. split; [apply Hs; discriminate|].
  exact Hc.
Defined.



Example related_manager_skips_other_owners :
  (Manager.count books library).1 = Ok 3
  /\ (Manager.count (books_of 0) library).1 = Ok 2
  /\ (Manager.get (books_of 1) [] library).1 = Ok 3
  /\ (Manager.get (books_of 0) [("name", VStr "b")] library).1 = Raise DoesNotExistError
  /\ (Manager.last (books_of 0) library).1 = Ok (Some 4).
Proof. repeat split; reflexivity. Qed.

Example first_and_last_of_three :
  (Manager.first books library).1 = Ok (Some 2)
  /\ (Manager.earliest books (Some "created") library).1 = Ok (Some 2)
  /\ (Manager.last books library).1 = Ok (Some 4)
  /\ (Manager.latest books (Some "created") library).1 = Ok (Some 4).
Proof. repeat split; reflexivity. Qed.

Lemma get_is_strict_witness :
  (Manager.get books [("name", VStr "z")] library).1 = Raise DoesNotExistError
  /\ (Manager.get books [("name", VStr "b")] library).1 = Ok 3
  /\ (Manager.get books [("name", VStr "a")] library).1 = Raise MultipleObjectsError.
Proof.
  split; [|split].
  - apply (get_is_strict 0 Book [("name", VStr "z")] library). reflexivity.
  - apply (get_is_strict 0 Book [("name", VStr "b")] library). reflexivity.
  - apply (get_is_strict 0 Book [("name", VStr "a")] library). vm_compute. lia.
Defined.

Lemma empty_collection_gives_none_witness :
  Store.contents empty_world "Book" = []
  /\ (Manager.earliest books None empty_world).1 = Ok None
  /\ (Manager.random (books_of 0) empty_world).1 = Ok None.
Proof.
  split; [reflexivity|]. split.
  - apply (empty_collection_gives_none books empty_world). reflexivity.
  - apply (empty_collection_gives_none (books_of 0) empty_world). reflexivity.
Defined.

Lemma managers_share_the_collection_witness :
  Store.remove_first 3 (Store.contents library "Book") = Some [2; 4]
  /\ (Manager._delete (books_of 0) 3 library).1 = Ok tt
  /\ (Manager.count books (Manager._delete (books_of 0) 3 library).2).1 = Ok 2
  /\ ~ In 5 (Store.contents library "Book")
  /\ (Manager._delete books 5 library).1 = Raise NotFoundError
  /\ (Manager.get books [("name", VStr "c")] library).1 = Raise DoesNotExistError
  /\ (Manager.get books [("name", VStr "c")] (Manager._add (books_of 0) 5 library).2).1
     = Ok 5.
Proof.
  pose proof (managers_share_the_collection 1 0 (RelatedManagerType 0) ManagerType
                Book 3 [] library) as H3.
  pose proof (managers_share_the_collection 0 0 ManagerType ManagerType
                Book 5 [] library) as H5.
  pose proof (managers_share_the_collection 1 0 (RelatedManagerType 0) ManagerType
                Book 5 [("name", VStr "c")] library) as Hg.
  cbv zeta in H3, H5, Hg.
  destruct H3 as (_ & _ & _ & _ & _ & _ & _ & _ & _ & _ & _
                  & _ & _ & _ & _ & _ & _ & H3 & _).
  destruct H5 as (_ & _ & _ & _ & _ & _ & _ & _ & _ & _ & _
                  & _ & _ & _ & _ & _ & _ & _ & H5).
  destruct Hg as (_ & _ & _ & _ & _ & _ & _ & _ & Hg0 & Hg1 & _).
  assert (Hnot : ~ In 5 (Store.contents library "Book")).
  { vm_compute. intros [H|[H|[H|[]]]]; discriminate H. }
  split; [reflexivity|].
  split; [apply (H3 [2; 4]); reflexivity|].
  split; [apply (H3 [2; 4]); reflexivity|].
  split; [exact Hnot|].
  split; [apply H5; exact Hnot|].
  split; [exact Hg0|exact Hg1].
Defined.

Example one_adds_the_other_counts :
  let w := (Manager._add books 5 library).2 in
  (Manager.count (books_of 1) library).1 = Ok 1
  /\ (Manager.count (books_of 1) w).1 = Ok 2
  /\ (Manager.last books w).1 = Ok (Some 5)
  /\ getattr (heap w 5) "created" = Some (VDatetime 500)
  /\ getattr (heap w 5) "updated" = Some (VDatetime 500).
Proof. repeat split; reflexivity. Qed.

Example instance_access_first_then_class :
  (mixed_accesses ManagerDescriptor.__init__
     [(Some 2, Book); (None, Book); (Some 3, Book); (None, Author)] library).1
  = [Raise (AttributeError "Manager isn't accessible via Book instances");
     Ok (Some books);
     Raise (AttributeError "Manager isn't accessible via Book instances");
     Ok (Some books)].
Proof. reflexivity. Qed.

Example repr_of_two_owners :
  Manager.__repr__ (books_of 0) = "<RelatedManager: Book>"
  /\ Manager.__repr__ (books_of 1) = "<RelatedManager: Book>"
  /\ Manager.__repr__ books = "<Manager: Book>".
Proof. repeat split; reflexivity. Qed.

Lemma add_writes_only_the_timestamps_witness :
  let w' := (Manager._add books 4 library).2 in
  getattr (heap w' 4) "name" = Some (VStr "a")
  /\ QuerySet.resolve (heap w') ["author"; "pk"] (VRef 4) = Some (VInt 10).
Proof.
  pose proof (add_writes_only_the_timestamps books 4 4 "name" ["author"; "pk"]
                (VRef 4) library) as H.
  cbv zeta in H.
  destruct H as (Hn & _ & _ & Hr & _).
  - discriminate.
  - discriminate.
  - intros [H|[H|[]]]; discriminate H.
  - intros [H|[H|[]]]; discriminate H.
  - split; [rewrite Hn|rewrite Hr]; reflexivity.
Defined.

Example add_same_book_twice :
  let w1 := (Manager._add books 3 library).2 in
  let w2 := (Manager._add books 3 (with_clock 900 w1)).2 in
  Store.contents w2 "Book" = [2; 3; 4; 3; 3]
  /\ getattr (heap w2 3) "created" = Some (VDatetime 900).
Proof. split; reflexivity. Qed.

Lemma delete_takes_out_the_first_occurrence_witness :
  let w := (Manager._add books 3 library).2 in
  Store.contents w "Book" = ([2] ++ 3 :: [4; 3])%list
  /\ ~ In 3 [2]
  /\ Store.contents (Manager._delete books 3 w).2 "Book" = [2; 4; 3].
Proof.
  cbv zeta.
  assert (H2 : ~ In 3 [2]) by (intros [H|[]]; discriminate H).
  split; [reflexivity|]. split; [exact H2|].
  pose proof (delete_takes_out_the_first_occurrence books 3
                (Manager._add books 3 library).2) as H.
  cbv zeta in H. destruct H as (_ & _ & H & _).
  apply (H [2] [4; 3]); [reflexivity|exact H2].
Defined.

Lemma add_then_delete_restores_the_collection_witness :
  ~ In 5 (Store.contents library "Book")
  /\ Store.contents (Manager._delete books 5 (Manager._add books 5 library).2).2 "Book"
     = [2; 3; 4].
Proof.
  assert (Hnot : ~ In 5 (Store.contents library (__name__ (model books)))).
  { vm_compute. intros [H|[H|[H|[]]]]; discriminate H. }
  split; [exact Hnot|].
  pose proof (add_then_delete_restores_the_collection books 5 library Hnot) as H.
  cbv zeta in H. destruct H as (_ & H & _). exact (H "Book").
Defined.

Example add_then_delete_of_a_stored_instance :
  Store.contents (Manager._delete books 2 (Manager._add books 2 library).2).2 "Book"
  = [3; 4; 2].
Proof. reflexivity. Qed.

Lemma clear_forgets_without_touching_witness :
  "Author" <> "Book"
  /\ Store.contents (Manager._clear (books_of 0) library).2 "Author"
     = Store.contents library "Author"
  /\ Store.contents (Manager._clear (books_of 0) library).2 "Book" = [].
Proof.
  pose proof (clear_forgets_without_touching (books_of 0) 5 library) as H.
  cbv zeta in H. destruct H as (_ & He & _ & Ho & _).
  split; [discriminate|]. split; [apply Ho; discriminate|exact He].
Defined.

Lemma related_get_is_get_with_the_foreign_key_witness :
  ~ In "author__pk" (map fst [("name", VStr "b")])
  /\ Manager.get (books_of 1) [("name", VStr "b")] library
     = Manager.get books [("author__pk", VInt 11); ("name", VStr "b")] library.
Proof.
  assert (Hk : ~ In "author__pk" (map fst [("name", VStr "b")]))
    by (intros [E|[]]; discriminate E).
  split; [exact Hk|].
  exact (related_get_is_get_with_the_foreign_key 1 0 Book 1
           [("name", VStr "b")] library Hk).
Defined.

Example related_get_both_ways :
  (Manager.get (books_of 1) [("name", VStr "b")] library).1 = Ok 3
  /\ (Manager.get books [("author__pk", VInt 11); ("name", VStr "b")] library).1 = Ok 3
  /\ (Manager.get (books_of 0) [("name", VStr "a")] library).1
     = Raise MultipleObjectsError
  /\ (Manager.get books [("author__pk", VInt 10); ("name", VStr "a")] library).1
     = Raise MultipleObjectsError.
Proof. repeat split; reflexivity. Qed.

Lemma add_through_related_manager_does_not_attach_witness :
  let w' := (Manager._add (books_of 0) 5 library).2 in
  ~ denotes (Manager.all (books_of 0)) w' w' 5
  /\ (Manager.count (books_of 0) w').1 = Ok 2
  /\ (Manager.count books w').1 = Ok 4.
Proof.
  cbv zeta. split; [|split; reflexivity].
  intros H.
  apply (add_through_related_manager_does_not_attach 1 0 Book 0 5 library) in H.
  - discriminate H.
  - intros [E|[E|[]]]; discriminate E.
  - intros [E|[E|[]]]; discriminate E.
Defined.
